(** * Sampling decisions and trace-header propagation of
      [packages/tracing/src/hubextensions.ts]

    A shallow embedding of the tracing hub extensions: the rate validator
    [isValidSampleRate], the sampling decision [sample], the propagation
    header [traceHeaders] and the registration [_addTracingExtensions],
    followed by the properties the specification states about them.

    ECMAScript numbers are IEEE 754 binary64 values; they are modelled by
    [spec_float] with the comparisons of the Standard Library's [SpecFloat]
    (every comparison with NaN is false, both zeros compare equal). A
    binary64 value is the [spec_float] with its canonical mantissa and
    exponent; the properties below hold for every [spec_float]. *)

From Stdlib Require Import ZArith Bool List.
From Stdlib Require Import Floats.SpecFloat.
From stdpp Require Import gmap strings.

Import ListNotations.
Open Scope string_scope.

(** ** ECMAScript values *)

(** An abrupt completion: the value a [throw] carries, identified by its
    kind. [TypeError] is what the host raises from a failed conversion. *)
Inductive Exception :=
| TypeError (msg : string)
| UserError (tag : string).

Inductive Completion (A : Type) :=
| Normal (a : A)
| Throw (e : Exception).
Arguments Normal {A} a.
Arguments Throw {A} e.

(** What the host's conversions do on an object. An object (or function)
    converts through its own [valueOf] / [toString] / [toJSON], which are
    arbitrary code: the record stores the outcome of [ToNumber] and whether
    [JSON.stringify] completes. *)
Record ObjectBehaviour := {
  obj_toNumber : Completion spec_float;
  obj_stringify : Completion unit
}.

(** Default and user-provided data handed to the sampler ([SampleContext] of
    [@sentry/types]); [request] and [location] are opaque snapshots. *)
Record SampleContext := {
  parentSampled : option bool;
  request : option string;
  location : option string
}.

Inductive Level := LevelLog | LevelWarn.

(** The five diagnostics of the file, one constructor per template. *)
Inductive Diagnostic :=
| InvalidRateType (type : string)          (* line 173 *)
| RateOutOfRange (rate : spec_float)       (* line 183 *)
| DiscardInvalidRate                       (* line 75 *)
| DiscardZeroRate (fromSampler : bool)     (* line 82 *)
| DiscardNotSampled (rate : spec_float).   (* line 99 *)

(** ** Numbers *)

Definition zero : spec_float := S754_zero false.
(** 1.0 in binary64: mantissa 2^52, exponent -52. *)
Definition one : spec_float := S754_finite false 4503599627370496 (-52).

Definition is_nan (n : spec_float) : bool :=
  match n with S754_nan => true | _ => false end.

Definition is_zero (n : spec_float) : bool :=
  match n with S754_zero _ => true | _ => false end.

(** What [Math.random()] returns: a number from 0 inclusive to 1
    exclusive (ECMA-262 21.3.2.27). *)
Record Draw := {
  draw_value : spec_float;
  draw_range : SFleb zero draw_value && SFltb draw_value one = true
}.

(** The part of the host the decision touches: the logger's output and the
    random source, a stream of draws with the number already consumed. *)
Record World := {
  logs : list (Level * Diagnostic);
  rng : nat -> Draw;
  rng_pos : nat
}.

(** The value universe. A function value carries what a call with a sample
    context does: it may change the world, and returns or throws. *)
#[local] Unset Elimination Schemes.
Inductive JSValue :=
| VUndefined
| VNull
| VBoolean (b : bool)
| VNumber (n : spec_float)
| VString (s : string)
| VSymbol (description : string)
| VBigInt (z : Z)
| VObject (o : ObjectBehaviour)
| VFunction (o : ObjectBehaviour)
            (call : SampleContext -> World -> Completion JSValue * World).
#[local] Set Elimination Schemes.

(** ** State and exceptions

    A computation reads and updates a state and either returns or throws;
    the state reached when it throws is kept. *)

Definition M (S A : Type) : Type := S -> Completion A * S.

Definition ret {S A} (a : A) : M S A := fun s => (Normal a, s).

Definition bind {S A B} (m : M S A) (k : A -> M S B) : M S B :=
  fun s =>
    match m s with
    | (Normal a, s') => k a s'
    | (Throw e, s') => (Throw e, s')
    end.

Definition liftC {S A} (c : Completion A) : M S A := fun s => (c, s).

Declare Scope js_scope.
Delimit Scope js_scope with js.
Notation "'let*' x := m 'in' k" := (bind m (fun x => k))
  (at level 10, x name, m at level 100, k at level 200) : js_scope.
Notation "m ;; k" := (bind m (fun _ => k))
  (at level 100, k at level 200, right associativity) : js_scope.
Open Scope js_scope.

(** ** Logger and random source *)

(** The world after one more diagnostic. *)
Definition emitted (l : Level) (d : Diagnostic) (w : World) : World :=
  {| logs := logs w ++ [(l, d)]; rng := rng w; rng_pos := rng_pos w |}.

Definition logger_emit (l : Level) (d : Diagnostic) : M World unit :=
  fun w => (Normal tt, emitted l d w).

Abbreviation warned := (emitted LevelWarn).
Abbreviation logged := (emitted LevelLog).

Definition logger_warn : Diagnostic -> M World unit := logger_emit LevelWarn.
Definition logger_log : Diagnostic -> M World unit := logger_emit LevelLog.

(** The world after one more draw. *)
Definition drawn (w : World) : World :=
  {| logs := logs w; rng := rng w; rng_pos := S (rng_pos w) |}.

(** [Math.random()]: the next draw of the stream. *)
Definition Math_random : M World spec_float :=
  fun w => (Normal (draw_value (rng w (rng_pos w))), drawn w).

(** ** Spans, configuration and the hub *)

(** The recorder a kept transaction owns, with the cap it was given. *)
Record SpanRecorder := { maxlen : JSValue }.

(** [Span] of [./span]; [Transaction] extends it without adding a field
    the decision reads. [sampled] is tri-state: [None] is undecided. *)
Record Span := {
  traceId : string;
  spanId : string;
  parentSpanId : option string;
  sampled : option bool;
  spanRecorder : option SpanRecorder
}.
Abbreviation Transaction := Span.

(** [options._experiments], of which only [maxSpans] is read. *)
Record Experiments := { maxSpans : option JSValue }.

(** The client options the decision reads. [None] is an absent key; a key
    may be present and hold any value, [undefined] included. *)
Record Options := {
  tracesSampleRate : option JSValue;
  tracesSampler : option JSValue;
  _experiments : option Experiments
}.

(** Reading a property: an absent key reads as [undefined]. *)
Definition prop (field : option JSValue) : JSValue :=
  match field with Some v => v | None => VUndefined end.

Record Client := { getOptions : Options }.
Record Scope := { getSpan : option Span }.
Record Hub := { getClient : option Client; getScope : option Scope }.

(** The state [sample] runs in: the transaction object it was handed, which
    it mutates in place, and the host. A sampler is called with the sample
    context alone and acts on the host; the transaction, just constructed,
    is out of its reach. *)
Record State := { transaction : Transaction; world : World }.

Definition liftW {A} (m : M World A) : M State A :=
  fun s =>
    match m (world s) with
    | (c, w') => (c, {| transaction := transaction s; world := w' |})
    end.

(** The span with its [sampled] field assigned. *)
Definition with_sampled (b : bool) (t : Span) : Span :=
  {| traceId := traceId t;
     spanId := spanId t;
     parentSpanId := parentSpanId t;
     sampled := Some b;
     spanRecorder := spanRecorder t |}.

(** [transaction.sampled = b] *)
Definition set_sampled (b : bool) : M State unit :=
  fun s =>
    (Normal tt,
     {| transaction := with_sampled b (transaction s); world := world s |}).

Definition get_transaction : M State Transaction :=
  fun s => (Normal (transaction s), s).

(** Modelled from the spec: [Transaction.initSpanRecorder] of
    [./transaction] is not part of the sources at hand. Section 4.3 step 7:
    the transaction's span recorder is initialized with the configured cap;
    section 8: it is initialized once, so an existing recorder is kept. *)
Definition with_recorder (cap : JSValue) (t : Span) : Span :=
  {| traceId := traceId t;
     spanId := spanId t;
     parentSpanId := parentSpanId t;
     sampled := sampled t;
     spanRecorder :=
       match spanRecorder t with
       | Some r => Some r
       | None => Some {| maxlen := cap |}
       end |}.

Definition initSpanRecorder (cap : JSValue) : M State unit :=
  fun s =>
    (Normal tt,
     {| transaction := with_recorder cap (transaction s); world := world s |}).

(** Modelled from the spec: [hasTracingEnabled] of [./utils] is not part of
    the sources at hand. Section 3: sampling is enabled only if at least one
    of [tracesSampler], [tracesSampleRate] is present. *)
Definition hasTracingEnabled (options : Options) : bool :=
  bool_decide (is_Some (tracesSampleRate options))
  || bool_decide (is_Some (tracesSampler options)).

(** Modelled from the spec: [Span.toTraceparent] of [./span] is not part of
    the sources at hand. Section 4.4: [<traceId>-<spanId>[-<sampledFlag>]],
    the flag being [1] for sampled, [0] for not sampled, and omitted while
    the decision is unknown. *)
Definition toTraceparent (span : Span) : string :=
  traceId span ++ "-" ++ spanId span ++
  match sampled span with
  | Some true => "-1"
  | Some false => "-0"
  | None => ""
  end.

(** ** The global carrier *)

(** The functions an extension slot can hold: the two this file defines,
    or any other function, known by its identity. *)
Inductive Extension :=
| The_startTransaction
| The_traceHeaders
| Foreign (id : string).

(** [carrier.__SENTRY__]: the global hub and the extensions table. *)
Record SentryGlobal := {
  hub : option Hub;
  extensions : option (gmap string Extension)
}.

Record Carrier := { __SENTRY__ : option SentryGlobal }.

Section Host.

(** The host's StringToNumber (ECMA-262 7.1.4.1), a parameter of the
    development. *)
Variable StringToNumber : string -> spec_float.

(** ** Conversions of the host (ECMA-262 7.1, 13.5.3) *)

Definition typeof (v : JSValue) : string :=
  match v with
  | VUndefined => "undefined"
  | VNull => "object"
  | VBoolean _ => "boolean"
  | VNumber _ => "number"
  | VString _ => "string"
  | VSymbol _ => "symbol"
  | VBigInt _ => "bigint"
  | VObject _ => "object"
  | VFunction _ _ => "function"
  end.

Definition ToNumber (v : JSValue) : Completion spec_float :=
  match v with
  | VUndefined => Normal S754_nan
  | VNull => Normal zero
  | VBoolean b => Normal (if b then one else zero)
  | VNumber n => Normal n
  | VString s => Normal (StringToNumber s)
  | VSymbol _ => Throw (TypeError "Cannot convert a Symbol value to a number")
  | VBigInt _ => Throw (TypeError "Cannot convert a BigInt value to a number")
  | VObject o => obj_toNumber o
  | VFunction o _ => obj_toNumber o
  end.

Definition ToBoolean (v : JSValue) : bool :=
  match v with
  | VUndefined | VNull => false
  | VBoolean b => b
  | VNumber n => negb (is_zero n || is_nan n)
  | VString s => negb (String.eqb s "")
  | VSymbol _ => true
  | VBigInt z => negb (Z.eqb z 0)
  | VObject _ | VFunction _ _ => true
  end.

(** The global [isNaN]: converts its argument, then tests the number. *)
Definition isNaN (v : JSValue) : Completion bool :=
  match ToNumber v with
  | Normal n => Normal (is_nan n)
  | Throw e => Throw e
  end.

(** Whether [JSON.stringify] completes; the text it produces is not kept. *)
Definition JSON_stringify (v : JSValue) : Completion unit :=
  match v with
  | VBigInt _ => Throw (TypeError "Do not know how to serialize a BigInt")
  | VObject o => obj_stringify o
  | VFunction o _ => obj_stringify o
  | _ => Normal tt
  end.

(** ** The rate validator (lines 169-187) *)

Definition isValidSampleRate (rate : JSValue) : M World bool :=
  let* nan := liftC (isNaN rate) in
  if nan || negb (String.eqb (typeof rate) "number"
                  || String.eqb (typeof rate) "boolean")
  then
    liftC (JSON_stringify rate) ;;
    logger_warn (InvalidRateType (typeof rate)) ;;
    ret false
  else
    (* [rate] is a number or a boolean here; [<] and [>] convert it *)
    let* n := liftC (ToNumber rate) in
    if SFltb n zero || SFltb one n
    then
      logger_warn (RateOutOfRange n) ;;
      ret false
    else ret true.

(** ** Trace headers (lines 18-29) *)

Definition traceHeaders (this : Hub) : gmap string string :=
  match getScope this with
  | Some scope =>
      match getSpan scope with
      | Some span => {[ "sentry-trace" := toTraceparent span ]}
      | None => ∅
      end
  | None => ∅
  end.

(** ** The sampling decision (lines 39-113) *)

Definition _inheritOrUseGivenRate
    (parentSampled : option bool) (givenRate : JSValue) : JSValue :=
  match parentSampled with
  | Some b => VBoolean b
  | None => givenRate
  end.

(** The options [sample] works with: [(client && client.getOptions()) || {}] *)
Definition sample_options (client : option Client) : Options :=
  match client with
  | Some c => getOptions c
  | None => {| tracesSampleRate := None; tracesSampler := None;
               _experiments := None |}
  end.

(** Lines 67-70: the binding of [sampleRate]. *)
Definition sample_sampleRate
    (options : Options) (sampleContext : SampleContext) : M World JSValue :=
  match prop (tracesSampler options) with
  | VFunction _ call => call sampleContext
  | _ => ret (_inheritOrUseGivenRate (parentSampled sampleContext)
                                     (prop (tracesSampleRate options)))
  end.

(** Lines 72-112: what [sample] does once [sampleRate] is bound. *)
Definition sample_decide (options : Options) (sampleRate : JSValue)
  : M State unit :=
  let* valid := liftW (isValidSampleRate sampleRate) in
  if negb valid then
    liftW (logger_warn DiscardInvalidRate) ;;
    set_sampled false
  else if negb (ToBoolean sampleRate) then
    liftW (logger_log
             (DiscardZeroRate
                (String.eqb (typeof (prop (tracesSampler options)))
                            "function"))) ;;
    set_sampled false
  else
    let* draw := liftW Math_random in
    let* rate := liftC (ToNumber sampleRate) in
    set_sampled (SFltb draw rate) ;;
    let* t := get_transaction in
    if negb (bool_decide (sampled t = Some true)) then
      let* shown := liftC (ToNumber sampleRate) in
      liftW (logger_log (DiscardNotSampled shown))
    else
      let experimentsOptions :=
        match _experiments options with
        | Some e => e
        | None => {| maxSpans := None |}
        end in
      initSpanRecorder (prop (maxSpans experimentsOptions)).

(** [sample(hub, transaction, sampleContext)]: the transaction is the one
    of the state, and the returned reference is that same object. *)
Definition sample (hub : Hub) (sampleContext : SampleContext) : M State unit :=
  let client := getClient hub in
  let options := sample_options client in
  if negb (bool_decide (is_Some client)) || negb (hasTracingEnabled options)
  then set_sampled false
  else
    let* sampleRate := liftW (sample_sampleRate options sampleContext) in
    sample_decide options sampleRate.

(** ** Registration (lines 224-235)

    The carrier is the one [getMainCarrier()] returns; the function is the
    update it undergoes. *)
Definition _addTracingExtensions (carrier : Carrier) : Carrier :=
  match __SENTRY__ carrier with
  | Some sentry =>
      let ext0 :=
        match extensions sentry with Some e => e | None => ∅ end in
      let ext1 :=
        match ext0 !! "startTransaction" with
        | Some _ => ext0
        | None => <[ "startTransaction" := The_startTransaction ]> ext0
        end in
      let ext2 :=
        match ext1 !! "traceHeaders" with
        | Some _ => ext1
        | None => <[ "traceHeaders" := The_traceHeaders ]> ext1
        end in
      {| __SENTRY__ := Some {| hub := hub sentry; extensions := Some ext2 |} |}
  | None => carrier
  end.

(** ** The validator as the specification words it (section 4.2)

    A rate is valid when it is a boolean, or a number that is not NaN and
    lies in the closed interval from 0 to 1. *)
Definition spec_isValid (rate : JSValue) : bool :=
  match rate with
  | VBoolean _ => true
  | VNumber n => negb (is_nan n) && SFleb zero n && SFleb n one
  | _ => false
  end.

(** The number a rate stands for in the draw (section 4.3 step 5): a
    boolean rate coerces to 1 when true and to 0 when false. *)
Definition rate_value (rate : JSValue) : spec_float :=
  match rate with
  | VBoolean true => one
  | VBoolean false => zero
  | VNumber n => n
  | _ => S754_nan
  end.

(** The function registered under a name on the carrier, if any. *)
Definition registered (name : string) (carrier : Carrier) : option Extension :=
  match __SENTRY__ carrier with
  | Some sentry =>
      match extensions sentry with
      | Some table => table !! name
      | None => None
      end
  | None => None
  end.

(** ** Sample inputs *)

Definition half : Draw :=
  {| draw_value := S754_finite false 4503599627370496 (-53);
     draw_range := eq_refl |}.

Definition minus_one : spec_float := S754_finite true 4503599627370496 (-52).
Definition one_and_a_half : spec_float :=
  S754_finite false 6755399441055744 (-52).
Definition quarter : spec_float := S754_finite false 4503599627370496 (-54).

(** A host whose every draw is 0.5 and that has logged nothing yet. *)
Definition world0 : World :=
  {| logs := []; rng := fun _ => half; rng_pos := 0 |}.

Definition txn0 : Transaction :=
  {| traceId := "abc123"; spanId := "def456"; parentSpanId := None;
     sampled := None; spanRecorder := None |}.

Definition no_context : SampleContext :=
  {| parentSampled := None; request := None; location := None |}.

Definition child_of (decision : bool) : SampleContext :=
  {| parentSampled := Some decision; request := None; location := None |}.

(** An object without conversion methods of its own. *)
Definition plain : ObjectBehaviour :=
  {| obj_toNumber := Normal S754_nan; obj_stringify := Normal tt |}.

Definition hub_with (options : Options) : Hub :=
  {| getClient := Some {| getOptions := options |}; getScope := None |}.

Definition hub_without_client : Hub :=
  {| getClient := None; getScope := None |}.

Definition static_rate (v : JSValue) : Options :=
  {| tracesSampleRate := Some v; tracesSampler := None;
     _experiments := None |}.

Definition sampler_returning (v : JSValue) : Options :=
  {| tracesSampleRate := None;
     tracesSampler := Some (VFunction plain (fun _ w => (Normal v, w)));
     _experiments := None |}.

Definition sampler_throwing (e : Exception) : Options :=
  {| tracesSampleRate := Some (VNumber one);
     tracesSampler := Some (VFunction plain (fun _ w => (Throw e, w)));
     _experiments := None |}.

Definition state0 : State := {| transaction := txn0; world := world0 |}.

(** A hub whose scope holds the span abc123 / def456 with a decision. *)
Definition hub_tracing (decision : option bool) : Hub :=
  {| getClient := None;
     getScope :=
       Some {| getSpan :=
                 Some {| traceId := "abc123"; spanId := "def456";
                         parentSpanId := None; sampled := decision;
                         spanRecorder := None |} |} |}.

Definition hub_idle : Hub :=
  {| getClient := None; getScope := Some {| getSpan := None |} |}.

(** Carriers: one whose [startTransaction] slot is taken by another
    function, one with an empty global, one without [__SENTRY__]. *)
Definition carrier_taken : Carrier :=
  {| __SENTRY__ :=
       Some {| hub := None;
               extensions :=
                 Some {[ "startTransaction" := Foreign "other" ]} |} |}.

Definition carrier_fresh : Carrier :=
  {| __SENTRY__ := Some {| hub := None; extensions := None |} |}.

Definition carrier_bare : Carrier := {| __SENTRY__ := None |}.

(** A string conversion that knows the literal of the examples. *)
Definition StringToNumber0 (s : string) : spec_float :=
  if String.eqb s "0.5" then draw_value half else S754_nan.

(** The cap [sample] hands to the recorder:
    [(options._experiments || {}).maxSpans]. *)
Definition configured_cap (options : Options) : JSValue :=
  prop (maxSpans match _experiments options with
                 | Some e => e
                 | None => {| maxSpans := None |}
                 end).

(** The statement "a parent's positive decision is always inherited when
    no custom sampler is configured", without a condition on the client. *)
Definition parent_yes_always_inherited : Prop :=
  forall (hub : Hub) (ctx : SampleContext) (t : Transaction) (w : World),
    parentSampled ctx = Some true ->
    typeof (prop (tracesSampler (sample_options (getClient hub))))
      <> "function" ->
    sampled (transaction
               (snd (sample hub ctx {| transaction := t; world := w |})))
    = Some true.


(** ** The default sample context (lines 119-164) *)

(** A member of the active domain: whether it is an instance of
    [http.IncomingMessage], and the snapshot [extractNodeRequestData] makes
    of it. *)
Record DomainMember := {
  isIncomingMessage : bool;
  requestData : string
}.

(** What [getDefaultSampleContext] reads of its environment: [isNodeEnv()],
    [getActiveDomain()] with the domain's members, and the global object's
    [location] ([None] when the global object has no such key, else the
    content a shallow copy of it takes). *)
Record Env := {
  isNodeEnv : bool;
  getActiveDomain : option (list DomainMember);
  globalLocation : option string
}.

(** Truthiness of an optional string: [undefined] and the empty string are
    falsy. *)
Definition truthy_string (s : option string) : bool :=
  match s with
  | Some s => negb (String.eqb s "")
  | None => false
  end.

Definition getDefaultSampleContext
    (env : Env) (transaction : Transaction) : SampleContext :=
  let parent :=
    if truthy_string (parentSpanId transaction)
       && bool_decide (sampled transaction <> None)
    then sampled transaction
    else None in
  if isNodeEnv env then
    let found :=
      match getActiveDomain env with
      | Some members =>
          match List.find isIncomingMessage members with
          | Some member => Some (requestData member)
          | None => None
          end
      | None => None
      end in
    {| parentSampled := parent; request := found; location := None |}
  else
    {| parentSampled := parent; request := None;
       location := globalLocation env |}.

(** ** Starting a transaction (lines 199-206) *)

(** The own keys of a [customSampleContext] that a [SampleContext] names:
    the outer [None] is an absent key, [Some None] a key holding
    [undefined]. *)
Record CustomSampleContext := {
  custom_parentSampled : option (option bool);
  custom_request : option (option string);
  custom_location : option (option string)
}.

(** [{ ...defaults, ...customSampleContext }]: every own key of the second
    object replaces the first's; spreading [undefined] adds nothing. *)
Definition spread_contexts
    (defaults : SampleContext) (custom : option CustomSampleContext)
  : SampleContext :=
  match custom with
  | None => defaults
  | Some c =>
      {| parentSampled :=
           match custom_parentSampled c with
           | Some v => v
           | None => parentSampled defaults
           end;
         request :=
           match custom_request c with
           | Some v => v
           | None => request defaults
           end;
         location :=
           match custom_location c with
           | Some v => v
           | None => location defaults
           end |}
  end.

(** The fields of a [TransactionContext] that name the span. *)
Record TransactionContext := {
  ctx_name : string;
  ctx_traceId : option string;
  ctx_spanId : option string;
  ctx_parentSpanId : option string;
  ctx_sampled : option bool
}.

(** [new Transaction(context, hub)] of [./transaction], a parameter of the
    development. *)
Variable new_Transaction : TransactionContext -> Hub -> Transaction.

Definition _startTransaction
    (env : Env) (this : Hub) (context : TransactionContext)
    (customSampleContext : option CustomSampleContext)
  : World -> Completion unit * State :=
  fun w =>
    let transaction := new_Transaction context this in
    sample this
      (spread_contexts (getDefaultSampleContext env transaction)
                       customSampleContext)
      {| transaction := transaction; world := w |}.

(** ** Further sample inputs *)

(** A constructor that copies the context and fills absent identifiers. *)
Definition new_Transaction0 (context : TransactionContext) (_ : Hub)
  : Transaction :=
  {| traceId := match ctx_traceId context with Some i => i | None => "abc123" end;
     spanId := match ctx_spanId context with Some i => i | None => "def456" end;
     parentSpanId := ctx_parentSpanId context;
     sampled := ctx_sampled context;
     spanRecorder := None |}.

Definition child_context (decision : bool) : TransactionContext :=
  {| ctx_name := "child"; ctx_traceId := None; ctx_spanId := None;
     ctx_parentSpanId := Some "0123456789abcdef";
     ctx_sampled := Some decision |}.

Definition root_context (preset : option bool) : TransactionContext :=
  {| ctx_name := "root"; ctx_traceId := None; ctx_spanId := None;
     ctx_parentSpanId := None; ctx_sampled := preset |}.

Definition browser : Env :=
  {| isNodeEnv := false; getActiveDomain := None;
     globalLocation := Some "https://example.org/" |}.

Definition server : Env :=
  {| isNodeEnv := true;
     getActiveDomain :=
       Some [ {| isIncomingMessage := false; requestData := "socket" |};
              {| isIncomingMessage := true; requestData := "GET /" |};
              {| isIncomingMessage := true; requestData := "GET /late" |} ];
     globalLocation := Some "ignored" |}.

Definition three_quarters : spec_float :=
  S754_finite false 6755399441055744 (-53).

(** * Properties *)

(** ** Comparisons of binary64 numbers *)

Lemma SFcompare_antisym (a b : spec_float) :
  SFcompare b a = option_map CompOpp (SFcompare a b).
Proof.
  destruct a as [sa|sa| |sa ma ea], b as [sb|sb| |sb mb eb]; simpl;
    try reflexivity;
    try (destruct sa; reflexivity);
    try (destruct sb; reflexivity);
    try (destruct sa, sb; reflexivity).
  destruct sa, sb; simpl; try reflexivity;
    rewrite (Z.compare_antisym ea eb);
    destruct (ea ?= eb)%Z; simpl; try reflexivity;
    change Eq with (CompOpp Eq) at 1;
    rewrite <- (Pos.compare_cont_antisym ma mb Eq);
    destruct (Pos.compare_cont Eq ma mb); reflexivity.
Qed.

(** For numbers other than NaN, [a < b] fails exactly when [b <= a]. *)
Lemma SFltb_false_iff_SFleb (a b : spec_float) :
  is_nan a = false -> is_nan b = false ->
  SFltb a b = false <-> SFleb b a = true.
Proof.
  intros Ha Hb. unfold SFltb, SFleb. rewrite (SFcompare_antisym a b).
  destruct (SFcompare a b) as [[]|] eqn:E; simpl; try tauto; try easy.
  destruct a, b; simpl in *; try discriminate;
    repeat match goal with s : bool |- _ => destruct s end; discriminate.
Qed.

(** ** The rate validator *)

(** The validator accepts exactly the rates the specification calls valid,
    and accepting leaves the world as it was. *)
Lemma isValidSampleRate_true_iff (rate : JSValue) (w w' : World) :
  isValidSampleRate rate w = (Normal true, w') <->
  spec_isValid rate = true /\ w' = w.
Proof.
  unfold isValidSampleRate, bind, liftC, isNaN, logger_warn, logger_emit,
    emitted, ret.
  destruct rate as [| |b|n|s|d|z|o|o call]; cbn;
    try solve [split; [intros H; discriminate H | intros [H _]; discriminate H]].
  - (* boolean *)
    destruct b; cbn;
      (split; [intros H; inversion H; auto | intros [_ ->]; reflexivity]).
  - (* number *)
    destruct (is_nan n) eqn:Hnan; cbn.
    { split; [intros H; discriminate H | intros [H _]; discriminate H]. }
    pose proof (SFltb_false_iff_SFleb n zero Hnan eq_refl) as Hlo.
    pose proof (SFltb_false_iff_SFleb one n eq_refl Hnan) as Hhi.
    destruct (SFltb n zero), (SFltb one n); cbn;
      try solve [split; [intros H; discriminate H
                        | intros [H _]; apply andb_prop in H as [Hl Hr];
                          destruct Hlo as [_ Hlo], Hhi as [_ Hhi];
                          first [specialize (Hlo Hl); discriminate
                                | specialize (Hhi Hr); discriminate]]].
    destruct Hlo as [Hlo _], Hhi as [Hhi _].
    rewrite (Hlo eq_refl), (Hhi eq_refl). cbn.
    split; [intros H; inversion H; auto | intros [_ ->]; reflexivity].
  - (* string *)
    destruct (is_nan (StringToNumber s)); cbn;
      (split; [intros H; discriminate H | intros [H _]; discriminate H]).
  - (* object *)
    destruct (obj_toNumber o) as [n|e]; cbn;
      [destruct (is_nan n), (obj_stringify o); cbn |];
      (split; [intros H; discriminate H | intros [H _]; discriminate H]).
  - (* function *)
    destruct (obj_toNumber o) as [n|e]; cbn;
      [destruct (is_nan n), (obj_stringify o); cbn |];
      (split; [intros H; discriminate H | intros [H _]; discriminate H]).
Qed.

(** Every call of the validator ends in one of three ways: it accepts and
    leaves the world alone, it rejects after exactly one warning, or a
    conversion of the host throws before anything is logged. The last two
    happen only on rates the specification calls invalid. *)
Lemma isValidSampleRate_outcomes (rate : JSValue) (w : World) :
  (spec_isValid rate = true /\ isValidSampleRate rate w = (Normal true, w))
  \/ (spec_isValid rate = false /\
      exists d, isValidSampleRate rate w = (Normal false, warned d w))
  \/ (spec_isValid rate = false /\
      exists e, isValidSampleRate rate w = (Throw e, w)).
Proof.
  destruct (spec_isValid rate) eqn:Hv.
  - left. split; [reflexivity|]. apply isValidSampleRate_true_iff. auto.
  - right.
    pose proof (isValidSampleRate_true_iff rate w w) as Hiff.
    rewrite Hv in Hiff.
    unfold isValidSampleRate, bind, liftC, isNaN, logger_warn, logger_emit,
      ret in *.
    destruct (ToNumber rate) as [n|e].
    2: { right. split; [reflexivity|]. eauto. }
    destruct (is_nan n || _).
    + destruct (JSON_stringify rate) as [[]|e].
      * left. split; [reflexivity|]. eauto.
      * right. split; [reflexivity|]. eauto.
    + destruct (SFltb n zero || SFltb one n).
      * left. split; [reflexivity|]. eauto.
      * destruct Hiff as [Hiff _]. destruct (Hiff eq_refl). discriminate.
Qed.

(** ** The sampling decision *)

Lemma sample_enabled (hub : Hub) (c : Client) (ctx : SampleContext) (s : State) :
  getClient hub = Some c ->
  hasTracingEnabled (getOptions c) = true ->
  sample hub ctx s =
  (let* sampleRate := liftW (sample_sampleRate (getOptions c) ctx) in
   sample_decide (getOptions c) sampleRate) s.
Proof.
  intros Hc He. unfold sample. rewrite Hc. cbn [sample_options].
  rewrite He. rewrite bool_decide_eq_true_2 by eauto. reflexivity.
Qed.

Lemma sample_sampleRate_function
    (options : Options) (ctx : SampleContext) (o : ObjectBehaviour)
    (hook : SampleContext -> World -> Completion JSValue * World) :
  prop (tracesSampler options) = VFunction o hook ->
  sample_sampleRate options ctx = hook ctx.
Proof. unfold sample_sampleRate. now intros ->. Qed.

Lemma sample_sampleRate_not_function
    (options : Options) (ctx : SampleContext) :
  typeof (prop (tracesSampler options)) <> "function" ->
  sample_sampleRate options ctx =
  ret (_inheritOrUseGivenRate (parentSampled ctx)
                              (prop (tracesSampleRate options))).
Proof.
  unfold sample_sampleRate.
  destruct (prop (tracesSampler options)); try reflexivity.
  intros Hf. now destruct Hf.
Qed.

Lemma sample_with_rate
    (hub : Hub) (c : Client) (ctx : SampleContext)
    (t : Transaction) (w w1 : World) (rate : JSValue) :
  getClient hub = Some c ->
  hasTracingEnabled (getOptions c) = true ->
  sample_sampleRate (getOptions c) ctx w = (Normal rate, w1) ->
  sample hub ctx {| transaction := t; world := w |} =
  sample_decide (getOptions c) rate {| transaction := t; world := w1 |}.
Proof.
  intros Hc He Hrate. rewrite (sample_enabled hub c ctx _ Hc He).
  unfold bind, liftW. cbn [world transaction]. now rewrite Hrate.
Qed.

(** C1. Precedence of the candidate rate, for a hub with a client and with
    tracing enabled: when [tracesSampler] is a function, [sample] calls it
    with the sample context and decides on what it returns; otherwise, when
    [parentSampled] is defined, it decides on that boolean; otherwise it
    decides on the configured [tracesSampleRate]. *)
Theorem C1_candidate_rate_precedence
    (hub : Hub) (c : Client) (ctx : SampleContext) (s : State) :
  getClient hub = Some c ->
  hasTracingEnabled (getOptions c) = true ->
  let options := getOptions c in
  (forall o hook, prop (tracesSampler options) = VFunction o hook ->
     sample hub ctx s =
     (let* rate := liftW (hook ctx) in sample_decide options rate) s)
  /\ (typeof (prop (tracesSampler options)) <> "function" ->
      forall b, parentSampled ctx = Some b ->
      sample hub ctx s = sample_decide options (VBoolean b) s)
  /\ (typeof (prop (tracesSampler options)) <> "function" ->
      parentSampled ctx = None ->
      sample hub ctx s =
      sample_decide options (prop (tracesSampleRate options)) s).
Proof.
  intros Hc He options.
  rewrite (sample_enabled hub c ctx s Hc He). fold options.
  repeat split.
  - intros o hook Hs.
    now rewrite (sample_sampleRate_function options ctx o hook Hs).
  - intros Hf b Hp.
    rewrite (sample_sampleRate_not_function options ctx Hf), Hp.
    reflexivity.
  - intros Hf Hp.
    rewrite (sample_sampleRate_not_function options ctx Hf), Hp.
    reflexivity.
Qed.

Lemma spec_isValid_ToNumber (rate : JSValue) :
  spec_isValid rate = true -> ToNumber rate = Normal (rate_value rate).
Proof. destruct rate as [| |[]| | | | | |]; simpl; congruence. Qed.

(** What [sample] does on a rate the validator accepts: nothing but the
    assignment when the rate is falsy, else one draw and the comparison. *)
Lemma sample_decide_valid
    (options : Options) (rate : JSValue) (t : Transaction) (w : World) :
  spec_isValid rate = true ->
  sample_decide options rate {| transaction := t; world := w |} =
  if negb (ToBoolean rate) then
    (Normal tt,
     {| transaction := with_sampled false t;
        world := logged (DiscardZeroRate
                           (String.eqb (typeof (prop (tracesSampler options)))
                                       "function")) w |})
  else if SFltb (draw_value (rng w (rng_pos w))) (rate_value rate) then
    (Normal tt,
     {| transaction := with_recorder (configured_cap options)
                                     (with_sampled true t);
        world := drawn w |})
  else
    (Normal tt,
     {| transaction := with_sampled false t;
        world := logged (DiscardNotSampled (rate_value rate)) (drawn w) |}).
Proof.
  intros Hv.
  pose proof (proj2 (isValidSampleRate_true_iff rate w w) (conj Hv eq_refl))
    as Hok.
  unfold sample_decide, bind, liftW. cbn [world transaction].
  rewrite Hok. cbn [negb].
  destruct (ToBoolean rate); cbn [negb]; [|reflexivity].
  unfold Math_random, liftC. rewrite (spec_isValid_ToNumber rate Hv).
  unfold set_sampled, get_transaction. cbn [world transaction].
  destruct (SFltb _ _); reflexivity.
Qed.

(** What [sample] does on a rate the validator rejects. *)
Lemma sample_decide_rejected
    (options : Options) (rate : JSValue) (t : Transaction) (w w' : World) :
  isValidSampleRate rate w = (Normal false, w') ->
  sample_decide options rate {| transaction := t; world := w |} =
  (Normal tt,
   {| transaction := with_sampled false t;
      world := warned DiscardInvalidRate w' |}).
Proof.
  intros Hr. unfold sample_decide, bind, liftW. cbn [world transaction].
  rewrite Hr. reflexivity.
Qed.

(** An exception of the validator leaves [sample] through the caller, with
    the transaction as it was. *)
Lemma sample_decide_throws
    (options : Options) (rate : JSValue) (t : Transaction) (w w' : World)
    (e : Exception) :
  isValidSampleRate rate w = (Throw e, w') ->
  sample_decide options rate {| transaction := t; world := w |} =
  (Throw e, {| transaction := t; world := w' |}).
Proof.
  intros Hr. unfold sample_decide, bind, liftW. cbn [world transaction].
  rewrite Hr. reflexivity.
Qed.

Lemma draw_below_one (d : Draw) : SFltb (draw_value d) one = true.
Proof. destruct d as [v H]. simpl. apply andb_prop in H. tauto. Qed.

(** C2. The final gate. When the candidate rate is valid and truthy, the
    call returns and [sampled] is [true] exactly when the draw is strictly
    below the rate, a boolean standing for 1 or 0; a candidate rate [true]
    gives [sampled = true] and a candidate rate [false] gives
    [sampled = false], whatever the context. *)
Theorem C2_final_sampling_gate
    (hub : Hub) (c : Client) (ctx : SampleContext)
    (t : Transaction) (w w1 : World) (rate : JSValue) :
  getClient hub = Some c ->
  hasTracingEnabled (getOptions c) = true ->
  sample_sampleRate (getOptions c) ctx w = (Normal rate, w1) ->
  spec_isValid rate = true ->
  let out := sample hub ctx {| transaction := t; world := w |} in
  let draw := draw_value (rng w1 (rng_pos w1)) in
  fst out = Normal tt
  /\ (ToBoolean rate = true ->
      sampled (transaction (snd out)) = Some (SFltb draw (rate_value rate))
      /\ rng_pos (world (snd out)) = S (rng_pos w1))
  /\ (rate = VBoolean true -> sampled (transaction (snd out)) = Some true)
  /\ (rate = VBoolean false -> sampled (transaction (snd out)) = Some false).
Proof.
  intros Hc He Hrate Hv out draw.
  assert (Hout : out = sample_decide (getOptions c) rate
                         {| transaction := t; world := w1 |})
    by exact (sample_with_rate hub c ctx t w w1 rate Hc He Hrate).
  rewrite (sample_decide_valid _ rate t w1 Hv) in Hout. fold draw in Hout.
  assert (Hgate : ToBoolean rate = true ->
            sampled (transaction (snd out)) =
            Some (SFltb draw (rate_value rate))
            /\ rng_pos (world (snd out)) = S (rng_pos w1)).
  { intros Hb. rewrite Hout, Hb. cbn [negb].
    destruct (SFltb draw (rate_value rate)); split; reflexivity. }
  repeat split.
  - rewrite Hout.
    destruct (negb (ToBoolean rate)); [reflexivity|].
    destruct (SFltb draw (rate_value rate)); reflexivity.
  - apply Hgate; assumption.
  - apply Hgate; assumption.
  - intros ->. destruct (Hgate eq_refl) as [-> _].
    unfold draw. cbn [rate_value]. now rewrite draw_below_one.
  - intros ->. rewrite Hout. reflexivity.
Qed.

(** C4 (as amended). With a client present and tracing enabled: when
    [parentSampled] is [true] and [tracesSampler] is not a function, the
    call returns with [sampled = true] and the recorder initialized,
    whatever the static rate is. *)
Theorem C4_parent_yes_inherited_when_enabled
    (hub : Hub) (c : Client) (ctx : SampleContext)
    (t : Transaction) (w : World) :
  getClient hub = Some c ->
  hasTracingEnabled (getOptions c) = true ->
  typeof (prop (tracesSampler (getOptions c))) <> "function" ->
  parentSampled ctx = Some true ->
  sample hub ctx {| transaction := t; world := w |} =
  (Normal tt,
   {| transaction := with_recorder (configured_cap (getOptions c))
                                   (with_sampled true t);
      world := drawn w |}).
Proof.
  intros Hc He Hf Hp.
  rewrite (sample_with_rate hub c ctx t w w (VBoolean true) Hc He)
    by (rewrite (sample_sampleRate_not_function _ ctx Hf), Hp; reflexivity).
  rewrite sample_decide_valid by reflexivity.
  cbn [ToBoolean negb rate_value]. now rewrite draw_below_one.
Qed.


(** C7. A throwing [tracesSampler]: the exception leaves [sample] and the
    transaction is as it was, its [sampled] field included. *)
Theorem C7_sampler_exception_propagates
    (hub : Hub) (c : Client) (ctx : SampleContext)
    (t : Transaction) (w w' : World)
    (o : ObjectBehaviour)
    (hook : SampleContext -> World -> Completion JSValue * World)
    (e : Exception) :
  getClient hub = Some c ->
  prop (tracesSampler (getOptions c)) = VFunction o hook ->
  hook ctx w = (Throw e, w') ->
  let out := sample hub ctx {| transaction := t; world := w |} in
  fst out = Throw e
  /\ transaction (snd out) = t
  /\ sampled (transaction (snd out)) = sampled t.
Proof.
  intros Hc Hs Hthrow out.
  assert (He : hasTracingEnabled (getOptions c) = true).
  { unfold hasTracingEnabled.
    destruct (tracesSampler (getOptions c)); [|discriminate].
    rewrite (bool_decide_eq_true_2 (is_Some (Some _))) by eauto.
    apply orb_true_r. }
  unfold out. rewrite (sample_enabled hub c ctx _ Hc He).
  rewrite (sample_sampleRate_function _ ctx o hook Hs).
  unfold bind, liftW. cbn [world transaction]. rewrite Hthrow.
  repeat split.
Qed.

(** C3. The validator does not reject every other input with a
    diagnostic: on a symbol or a BigInt, both invalid rates, the conversion
    inside [isNaN] throws a [TypeError] before the type test is reached,
    and nothing is logged. *)
Theorem C3_validator_throws_on_symbol_and_bigint
    (description : string) (z : Z) (w : World) :
  (spec_isValid (VSymbol description) = false
   /\ isValidSampleRate (VSymbol description) w =
      (Throw (TypeError "Cannot convert a Symbol value to a number"), w))
  /\ (spec_isValid (VBigInt z) = false
      /\ isValidSampleRate (VBigInt z) w =
         (Throw (TypeError "Cannot convert a BigInt value to a number"), w)).
Proof. repeat split. Qed.

(** A rate the validator rejects by returning: [sample] warns, assigns
    [sampled = false] and returns, the recorder being as it was. *)
Lemma sample_rejected_rate_dropped
    (hub : Hub) (c : Client) (ctx : SampleContext)
    (t : Transaction) (w w1 w2 : World) (rate : JSValue) :
  getClient hub = Some c ->
  hasTracingEnabled (getOptions c) = true ->
  sample_sampleRate (getOptions c) ctx w = (Normal rate, w1) ->
  isValidSampleRate rate w1 = (Normal false, w2) ->
  sample hub ctx {| transaction := t; world := w |} =
  (Normal tt,
   {| transaction := with_sampled false t;
      world := warned DiscardInvalidRate w2 |}).
Proof.
  intros Hc He Hrate Hrej.
  rewrite (sample_with_rate hub c ctx t w w1 rate Hc He Hrate).
  exact (sample_decide_rejected _ rate t w1 w2 Hrej).
Qed.

(** Rates that are not numbers or booleans and whose conversions complete
    are rejected by returning, after one warning. *)
Lemma isValidSampleRate_rejects_when_conversions_complete
    (rate : JSValue) (w : World) (n : spec_float) :
  spec_isValid rate = false ->
  ToNumber rate = Normal n ->
  JSON_stringify rate = Normal tt ->
  exists d, isValidSampleRate rate w = (Normal false, warned d w).
Proof.
  intros Hv Hn Hj.
  destruct (isValidSampleRate_outcomes rate w)
    as [[Ht _] | [[_ Hd] | [_ [e He]]]]; [congruence | exact Hd |].
  exfalso. revert He.
  unfold isValidSampleRate, bind, liftC, isNaN, logger_warn, logger_emit, ret.
  rewrite Hn, Hj.
  destruct (is_nan n || _); [discriminate|].
  destruct (SFltb n zero || SFltb one n); discriminate.
Qed.

(** C6. An invalid candidate rate does not always end in a normal return:
    with a BigInt as the static rate, or a sampler returning a symbol, the
    validator's exception leaves [sample], no diagnostic is produced and
    [sampled] stays as it was. *)
Theorem C6_invalid_rate_can_escape_as_exception
    (z : Z) (description : string) (t : Transaction) (w : World) :
  (spec_isValid (VBigInt z) = false
   /\ sample (hub_with (static_rate (VBigInt z))) no_context
             {| transaction := t; world := w |} =
      (Throw (TypeError "Cannot convert a BigInt value to a number"),
       {| transaction := t; world := w |}))
  /\ (spec_isValid (VSymbol description) = false
      /\ sample (hub_with (sampler_returning (VSymbol description))) no_context
                {| transaction := t; world := w |} =
         (Throw (TypeError "Cannot convert a Symbol value to a number"),
          {| transaction := t; world := w |})).
Proof. repeat split. Qed.

(** ** Trace headers *)

(** C9. Without a scope, or without a span on the scope, [traceHeaders] is
    the empty mapping; with a span it is the mapping with the one key
    [sentry-trace], holding trace id, span id and, once decided, the flag,
    joined by dashes. For trace id abc123 and span id def456 the value is
    abc123-def456-1 when sampled and abc123-def456 while undecided. *)
Theorem C9_trace_headers (this : Hub) :
  (getScope this = None -> traceHeaders this = ∅)
  /\ (forall scope, getScope this = Some scope -> getSpan scope = None ->
      traceHeaders this = ∅)
  /\ (forall scope span,
      getScope this = Some scope -> getSpan scope = Some span ->
      traceHeaders this =
        {[ "sentry-trace" :=
             traceId span ++ "-" ++ spanId span ++
             match sampled span with
             | Some true => "-1" | Some false => "-0" | None => ""
             end ]}
      /\ dom (traceHeaders this) = ({[ "sentry-trace" ]} : gset string)
      /\ (traceId span = "abc123" -> spanId span = "def456" ->
          (sampled span = Some true ->
           traceHeaders this !! "sentry-trace" = Some "abc123-def456-1")
          /\ (sampled span = None ->
              traceHeaders this !! "sentry-trace" = Some "abc123-def456"))).
Proof.
  unfold traceHeaders. split; [|split].
  - now intros ->.
  - now intros scope -> ->.
  - intros scope span -> ->. split; [reflexivity|]. split.
    + now rewrite dom_singleton_L.
    + intros Ht Hs. unfold toTraceparent. rewrite Ht, Hs.
      split; intros ->; now rewrite lookup_singleton_eq.
Qed.

(** ** Registration *)

Lemma registered_after_registration
    (name : string) (carrier : Carrier) (f : Extension) :
  registered name carrier = Some f ->
  registered name (_addTracingExtensions carrier) = Some f.
Proof.
  unfold registered, _addTracingExtensions.
  destruct (__SENTRY__ carrier) as [sentry|]; [|discriminate].
  destruct (extensions sentry) as [table|]; [|discriminate].
  cbn. intros Hf.
  destruct (table !! "startTransaction") eqn:Hs.
  - destruct (table !! "traceHeaders") eqn:Ht; [exact Hf|].
    rewrite lookup_insert_ne; [exact Hf | congruence].
  - assert (Hne : "startTransaction" <> name) by congruence.
    destruct (<["startTransaction":=The_startTransaction]> table
                !! "traceHeaders") eqn:Ht.
    + now rewrite lookup_insert_ne.
    + rewrite lookup_insert_ne in Ht by discriminate.
      rewrite !lookup_insert_ne; [exact Hf | exact Hne | congruence].
Qed.

(** C8. Registration is idempotent and the first writer wins: a second call
    changes nothing, and a function registered under a name, the two names
    of this file included, is still the one registered after any number of
    further calls. *)
Theorem C8_registration_first_writer_wins
    (carrier : Carrier) (name : string) (f : Extension) (n : nat) :
  registered name carrier = Some f ->
  registered name (Nat.iter n _addTracingExtensions carrier) = Some f
  /\ _addTracingExtensions (_addTracingExtensions carrier)
     = _addTracingExtensions carrier.
Proof.
  intros Hf. split.
  - induction n as [|n IH]; [exact Hf|].
    cbn. now apply registered_after_registration.
  - clear. unfold _addTracingExtensions.
    destruct (__SENTRY__ carrier) as [sentry|] eqn:Hc; cbn; [|now rewrite Hc].
    set (ext0 := match extensions sentry with Some e => e | None => ∅ end).
    clearbody ext0.
    destruct (ext0 !! "startTransaction") eqn:Hs;
      destruct (ext0 !! "traceHeaders") eqn:Ht;
      repeat first [ rewrite lookup_insert_eq
                   | rewrite lookup_insert_ne by discriminate
                   | rewrite Hs | rewrite Ht ];
      reflexivity.
Qed.

(** C10. A carrier without [__SENTRY__] is left as it is: no extensions
    table is made and neither name is registered. *)
Theorem C10_registration_without_sentry_global (carrier : Carrier) :
  __SENTRY__ carrier = None ->
  _addTracingExtensions carrier = carrier
  /\ __SENTRY__ (_addTracingExtensions carrier) = None
  /\ registered "startTransaction" (_addTracingExtensions carrier) = None
  /\ registered "traceHeaders" (_addTracingExtensions carrier) = None.
Proof.
  intros Hc. unfold registered, _addTracingExtensions. rewrite Hc.
  repeat split; now rewrite ?Hc.
Qed.

(** * Further properties of the code *)

(** ** The validator *)

(** X1. The validator returns [true] exactly on a boolean and on a number that
    is not NaN and lies between 0 and 1, bounds included, and then it has
    logged nothing. *)
Theorem isValidSampleRate_accepts_exactly (rate : JSValue) (w w' : World) :
  isValidSampleRate rate w = (Normal true, w') <->
  ((exists b, rate = VBoolean b)
   \/ (exists n, rate = VNumber n /\ is_nan n = false
                 /\ SFleb zero n = true /\ SFleb n one = true))
  /\ w' = w.
Proof.
  rewrite isValidSampleRate_true_iff.
  split; intros [Hv ->]; (split; [|reflexivity]).
  - destruct rate as [| |b|n| | | | |]; try discriminate Hv.
    + left. eauto.
    + right. exists n. simpl in Hv.
      apply andb_prop in Hv as [Hv Hhi]. apply andb_prop in Hv as [Hn Hlo].
      apply negb_true_iff in Hn. auto.
  - destruct Hv as [[b ->] | (n & -> & Hn & Hlo & Hhi)]; [reflexivity|].
    simpl. now rewrite Hn, Hlo, Hhi.
Qed.

(** X2. The validator never takes a random draw; it logs one warning when it
    returns [false] and leaves the world as it was otherwise, an exception
    included. *)
Theorem isValidSampleRate_effects (rate : JSValue) (w : World) :
  let r := isValidSampleRate rate w in
  rng (snd r) = rng w
  /\ rng_pos (snd r) = rng_pos w
  /\ ((fst r = Normal false
       /\ exists d, logs (snd r) = (logs w ++ [(LevelWarn, d)])%list)
      \/ (fst r <> Normal false /\ snd r = w)).
Proof.
  destruct (isValidSampleRate_outcomes rate w)
    as [[_ H] | [[_ [d H]] | [_ [e H]]]]; cbv zeta; rewrite H; cbn.
  - repeat split. right. split; [discriminate | reflexivity].
  - repeat split. left. split; [reflexivity | eauto].
  - repeat split. right. split; [discriminate | reflexivity].
Qed.

(** X3. The validator throws only on a symbol, a BigInt, an object or a
    function: on [undefined], [null], booleans, numbers and strings it
    always returns. *)
Theorem isValidSampleRate_throws_only_on
    (rate : JSValue) (w w' : World) (e : Exception) :
  isValidSampleRate rate w = (Throw e, w') ->
  typeof rate = "symbol" \/ typeof rate = "bigint"
  \/ (typeof rate = "object" /\ rate <> VNull)
  \/ typeof rate = "function".
Proof.
  unfold isValidSampleRate, bind, liftC, isNaN, logger_warn, logger_emit, ret.
  destruct rate as [| |b|n|s|d|z|o|o call]; cbn; auto;
    try solve [intros H; discriminate H].
  - destruct b; intros H; discriminate H.
  - destruct (is_nan n); cbn; [intros H; discriminate H|].
    destruct (SFltb n zero || SFltb one n); intros H; discriminate H.
  - destruct (is_nan (StringToNumber s)); intros H; discriminate H.
Qed.

(** ** The decision *)

(** Whatever the hub, the context and the host: [sample] ends in one of
    three ways, the same for every transaction it is handed. It throws and
    the transaction is as it was; or it returns with [sampled = false] and
    nothing else changed; or it returns with [sampled = true] and the
    recorder initialized with the configured cap. *)
Lemma sample_uniform (hub : Hub) (ctx : SampleContext) (w : World) :
  (exists e w', forall t,
      sample hub ctx {| transaction := t; world := w |} =
      (Throw e, {| transaction := t; world := w' |}))
  \/ (exists w', forall t,
      sample hub ctx {| transaction := t; world := w |} =
      (Normal tt, {| transaction := with_sampled false t; world := w' |}))
  \/ (exists w', forall t,
      sample hub ctx {| transaction := t; world := w |} =
      (Normal tt,
       {| transaction :=
            with_recorder (configured_cap (sample_options (getClient hub)))
                          (with_sampled true t);
          world := w' |})).
Proof.
  destruct (getClient hub) as [c|] eqn:Hc.
  2: { right. left. exists w. intros t. unfold sample. now rewrite Hc. }
  destruct (hasTracingEnabled (getOptions c)) eqn:He.
  2: { right. left. exists w. intros t. unfold sample. rewrite Hc.
       cbn [sample_options]. rewrite He. now rewrite orb_true_r. }
  cbn [sample_options].
  destruct (sample_sampleRate (getOptions c) ctx w) as [[rate|e] w1] eqn:Hr.
  2: { left. exists e, w1. intros t.
       rewrite (sample_enabled hub c ctx _ Hc He).
       unfold bind, liftW. cbn [world transaction]. now rewrite Hr. }
  destruct (isValidSampleRate_outcomes rate w1)
    as [[Hv _] | [[_ [d Hd]] | [_ [e He']]]].
  - destruct (ToBoolean rate) eqn:Hb.
    + destruct (SFltb (draw_value (rng w1 (rng_pos w1))) (rate_value rate))
        eqn:Hlt.
      * right. right. eexists. intros t.
        rewrite (sample_with_rate hub c ctx t w w1 rate Hc He Hr).
        rewrite (sample_decide_valid _ rate t w1 Hv), Hb. cbn [negb].
        rewrite Hlt. reflexivity.
      * right. left. eexists. intros t.
        rewrite (sample_with_rate hub c ctx t w w1 rate Hc He Hr).
        rewrite (sample_decide_valid _ rate t w1 Hv), Hb. cbn [negb].
        rewrite Hlt. reflexivity.
    + right. left. eexists. intros t.
      rewrite (sample_with_rate hub c ctx t w w1 rate Hc He Hr).
      rewrite (sample_decide_valid _ rate t w1 Hv), Hb. reflexivity.
  - right. left. eexists. intros t.
    rewrite (sample_with_rate hub c ctx t w w1 rate Hc He Hr).
    exact (sample_decide_rejected _ rate t w1 _ Hd).
  - left. exists e, w1. intros t.
    rewrite (sample_with_rate hub c ctx t w w1 rate Hc He Hr).
    exact (sample_decide_throws _ rate t w1 w1 e He').
Qed.

(** X4. [sample] never touches the identifiers of the transaction, whether it
    returns or throws. *)
Theorem sample_keeps_identifiers
    (hub : Hub) (ctx : SampleContext) (t : Transaction) (w : World) :
  let t' := transaction (snd (sample hub ctx
                                {| transaction := t; world := w |})) in
  traceId t' = traceId t /\ spanId t' = spanId t
  /\ parentSpanId t' = parentSpanId t.
Proof.
  destruct (sample_uniform hub ctx w)
    as [(e & w' & H) | [(w' & H) | (w' & H)]];
    cbv zeta; rewrite H; repeat split.
Qed.

(** X5. When [sample] returns, the decision is made: [sampled] is [true] or
    [false], never left undecided, and a dropped transaction has the
    recorder it came with. When it throws, the transaction is untouched. *)
Theorem sample_decides_or_escapes
    (hub : Hub) (ctx : SampleContext) (t : Transaction) (w : World) :
  let r := sample hub ctx {| transaction := t; world := w |} in
  (fst r = Normal tt
   /\ exists b, sampled (transaction (snd r)) = Some b
       /\ (b = false -> spanRecorder (transaction (snd r)) = spanRecorder t))
  \/ (exists e, fst r = Throw e /\ transaction (snd r) = t).
Proof.
  destruct (sample_uniform hub ctx w)
    as [(e & w' & H) | [(w' & H) | (w' & H)]];
    cbv zeta; rewrite H; cbn.
  - right. eauto.
  - left. split; [reflexivity|]. exists false. auto.
  - left. split; [reflexivity|]. exists true. split; [reflexivity|discriminate].
Qed.

(** X6. [sample] never reads the [sampled] field it is about to assign: two
    transactions that differ in it alone get the same completion, the same
    world, and on return the same transaction. *)
Theorem sample_ignores_earlier_decision
    (hub : Hub) (ctx : SampleContext) (t : Transaction) (w : World)
    (earlier : option bool) :
  let t0 := {| traceId := traceId t; spanId := spanId t;
               parentSpanId := parentSpanId t; sampled := earlier;
               spanRecorder := spanRecorder t |} in
  let r := sample hub ctx {| transaction := t; world := w |} in
  let r0 := sample hub ctx {| transaction := t0; world := w |} in
  fst r0 = fst r
  /\ world (snd r0) = world (snd r)
  /\ (forall u, fst r = Normal u -> transaction (snd r0) = transaction (snd r)).
Proof.
  destruct (sample_uniform hub ctx w)
    as [(e & w' & H) | [(w' & H) | (w' & H)]];
    cbv zeta; rewrite !H; cbn; repeat split; discriminate.
Qed.

Lemma SFltb_SFleb_trans (a b c : spec_float) :
  SFltb a b = true -> SFleb b c = true -> SFltb a c = true.
Proof.
  unfold SFltb, SFleb.
  destruct a as [sa|sa| |sa ma ea], b as [sb|sb| |sb mb eb],
           c as [sc|sc| |sc mc ec]; simpl;
    repeat match goal with s : bool |- _ => destruct s end; simpl;
    try discriminate; try reflexivity; intros H1 H2;
    change (Pos.compare_cont Eq) with Pos.compare in *;
    repeat match goal with
    | H : context [(?x ?= ?y)%Z] |- _ =>
        destruct (Z.compare_spec x y); try discriminate H
    | H : context [(?x ?= ?y)%positive] |- _ =>
        destruct (Pos.compare_spec x y); try discriminate H
    end; subst;
    repeat match goal with
    | |- context [(?x ?= ?y)%Z] =>
        destruct (Z.compare_spec x y); try lia
    | |- context [(?x ?= ?y)%positive] =>
        destruct (Pos.compare_spec x y); try lia
    end; simpl in *; try reflexivity; try discriminate; try lia.
Qed.

(** A number above a draw is neither zero nor NaN. *)
Lemma above_draw_truthy (d : Draw) (n : spec_float) :
  SFltb (draw_value d) n = true -> is_zero n || is_nan n = false.
Proof.
  destruct d as [v Hv]. cbn [draw_value].
  apply andb_prop in Hv as [Hlo _]. revert Hlo.
  unfold SFltb, SFleb, zero.
  destruct v as [sv|sv| |sv mv ev], n as [sn|sn| |sn mn en]; simpl;
    repeat match goal with s : bool |- _ => destruct s end; simpl;
    try discriminate; try reflexivity.
Qed.

Lemma valid_rate_truthy (rate : JSValue) :
  spec_isValid rate = true ->
  ToBoolean rate = negb (is_zero (rate_value rate) || is_nan (rate_value rate)).
Proof. destruct rate as [| |[]| | | | | |]; simpl; congruence. Qed.

(** X7. The diagnostics of a valid candidate rate: a falsy rate logs that the
    rate is zero, naming the sampler exactly when [tracesSampler] is a
    function; a transaction that loses the draw logs the rate; a kept
    transaction logs nothing. A valid rate never produces a warning. *)
Theorem sample_diagnostics_of_valid_rate
    (hub : Hub) (c : Client) (ctx : SampleContext)
    (t : Transaction) (w w1 : World) (rate : JSValue) :
  getClient hub = Some c ->
  hasTracingEnabled (getOptions c) = true ->
  sample_sampleRate (getOptions c) ctx w = (Normal rate, w1) ->
  spec_isValid rate = true ->
  logs (world (snd (sample hub ctx {| transaction := t; world := w |}))) =
  (logs w1 ++
   if negb (ToBoolean rate) then
     [(LevelLog,
       DiscardZeroRate
         (String.eqb (typeof (prop (tracesSampler (getOptions c))))
                     "function"))]
   else if SFltb (draw_value (rng w1 (rng_pos w1))) (rate_value rate) then []
   else [(LevelLog, DiscardNotSampled (rate_value rate))])%list.
Proof.
  intros Hc He Hr Hv.
  rewrite (sample_with_rate hub c ctx t w w1 rate Hc He Hr).
  rewrite (sample_decide_valid _ rate t w1 Hv).
  destruct (negb (ToBoolean rate)); [reflexivity|].
  destruct (SFltb _ _); cbn; [now rewrite app_nil_r | reflexivity].
Qed.

(** X8. [sample] takes a draw only for a candidate rate that is valid and
    truthy, and then exactly one; an invalid or falsy rate, and a rate on
    which the validator throws, cost no draw. The stream itself is never
    replaced. *)
Theorem sample_draws_only_for_truthy_valid_rate
    (hub : Hub) (c : Client) (ctx : SampleContext)
    (t : Transaction) (w w1 : World) (rate : JSValue) :
  getClient hub = Some c ->
  hasTracingEnabled (getOptions c) = true ->
  sample_sampleRate (getOptions c) ctx w = (Normal rate, w1) ->
  let w' := world (snd (sample hub ctx {| transaction := t; world := w |})) in
  rng w' = rng w1
  /\ rng_pos w' =
     if spec_isValid rate && ToBoolean rate then S (rng_pos w1)
     else rng_pos w1.
Proof.
  intros Hc He Hr. cbv zeta.
  rewrite (sample_with_rate hub c ctx t w w1 rate Hc He Hr).
  destruct (isValidSampleRate_outcomes rate w1)
    as [[Hv _] | [[Hv [d Hd]] | [Hv [e He']]]]; rewrite Hv; cbn [andb].
  - rewrite (sample_decide_valid _ rate t w1 Hv).
    destruct (ToBoolean rate); cbn [negb]; [|split; reflexivity].
    destruct (SFltb _ _); split; reflexivity.
  - rewrite (sample_decide_rejected _ rate t w1 _ Hd). split; reflexivity.
  - rewrite (sample_decide_throws _ rate t w1 w1 e He'). split; reflexivity.
Qed.

(** X9. Without a sampler function, a child takes its parent's decision,
    [false] as well as [true], whatever the static rate is; the negative
    decision costs no draw. *)
Theorem sample_inherits_parent_decision
    (hub : Hub) (c : Client) (ctx : SampleContext)
    (t : Transaction) (w : World) (decision : bool) :
  getClient hub = Some c ->
  hasTracingEnabled (getOptions c) = true ->
  typeof (prop (tracesSampler (getOptions c))) <> "function" ->
  parentSampled ctx = Some decision ->
  let r := sample hub ctx {| transaction := t; world := w |} in
  fst r = Normal tt
  /\ sampled (transaction (snd r)) = Some decision
  /\ rng_pos (world (snd r)) =
     if decision then S (rng_pos w) else rng_pos w.
Proof.
  intros Hc He Hf Hp. cbv zeta.
  rewrite (sample_with_rate hub c ctx t w w (VBoolean decision) Hc He)
    by (rewrite (sample_sampleRate_not_function _ ctx Hf), Hp; reflexivity).
  rewrite sample_decide_valid by reflexivity.
  destruct decision; cbn [ToBoolean negb rate_value].
  - rewrite draw_below_one. repeat split.
  - repeat split.
Qed.

(** X10. Raising the rate never loses a transaction: on the same draw, a
    transaction kept at a valid rate is kept at every valid rate that is
    at least as high. *)
Theorem sample_monotone_in_rate
    (hub1 hub2 : Hub) (c1 c2 : Client) (ctx1 ctx2 : SampleContext)
    (t : Transaction) (w w1 : World) (rate1 rate2 : JSValue) :
  getClient hub1 = Some c1 ->
  getClient hub2 = Some c2 ->
  hasTracingEnabled (getOptions c1) = true ->
  hasTracingEnabled (getOptions c2) = true ->
  sample_sampleRate (getOptions c1) ctx1 w = (Normal rate1, w1) ->
  sample_sampleRate (getOptions c2) ctx2 w = (Normal rate2, w1) ->
  spec_isValid rate1 = true ->
  spec_isValid rate2 = true ->
  SFleb (rate_value rate1) (rate_value rate2) = true ->
  sampled (transaction
             (snd (sample hub1 ctx1 {| transaction := t; world := w |})))
    = Some true ->
  sampled (transaction
             (snd (sample hub2 ctx2 {| transaction := t; world := w |})))
    = Some true.
Proof.
  intros Hc1 Hc2 He1 He2 Hr1 Hr2 Hv1 Hv2 Hle.
  rewrite (sample_with_rate hub1 c1 ctx1 t w w1 rate1 Hc1 He1 Hr1).
  rewrite (sample_with_rate hub2 c2 ctx2 t w w1 rate2 Hc2 He2 Hr2).
  rewrite !sample_decide_valid by assumption.
  destruct (ToBoolean rate1); cbn [negb]; [|discriminate].
  destruct (SFltb (draw_value (rng w1 (rng_pos w1))) (rate_value rate1))
    eqn:Hlt; [|discriminate].
  intros _.
  pose proof (SFltb_SFleb_trans _ _ _ Hlt Hle) as Hlt2.
  rewrite (valid_rate_truthy rate2 Hv2), (above_draw_truthy _ _ Hlt2).
  cbn [negb]. rewrite Hlt2. reflexivity.
Qed.

(** ** Registration *)

(** X11. After registration on a carrier that has [__SENTRY__], both slots are
    filled: each holds the function it held before, or this file's function
    if it was free. *)
Theorem registration_fills_free_slots
    (carrier : Carrier) (sentry : SentryGlobal) :
  __SENTRY__ carrier = Some sentry ->
  registered "startTransaction" (_addTracingExtensions carrier) =
    Some (match registered "startTransaction" carrier with
          | Some f => f
          | None => The_startTransaction
          end)
  /\ registered "traceHeaders" (_addTracingExtensions carrier) =
     Some (match registered "traceHeaders" carrier with
           | Some f => f
           | None => The_traceHeaders
           end).
Proof.
  intros Hc. unfold registered, _addTracingExtensions. rewrite Hc. cbn.
  set (ext0 := match extensions sentry with Some e => e | None => ∅ end).
  assert (Hs : match extensions sentry with
               | Some table => table !! "startTransaction"
               | None => None
               end = ext0 !! "startTransaction")
    by (unfold ext0; destruct (extensions sentry); [reflexivity|];
        now rewrite lookup_empty).
  assert (Ht : match extensions sentry with
               | Some table => table !! "traceHeaders"
               | None => None
               end = ext0 !! "traceHeaders")
    by (unfold ext0; destruct (extensions sentry); [reflexivity|];
        now rewrite lookup_empty).
  rewrite Hs, Ht. clearbody ext0. clear Hs Ht.
  destruct (ext0 !! "startTransaction") eqn:Es;
    destruct (ext0 !! "traceHeaders") eqn:Et;
    repeat first [ rewrite lookup_insert_eq
                 | rewrite lookup_insert_ne by discriminate
                 | rewrite Es | rewrite Et ];
    split; reflexivity.
Qed.

(** X12. Registration touches nothing but its two slots: a function registered
    under any other name stays, no other name appears, and the carrier's
    hub is the same. *)
Theorem registration_leaves_other_slots
    (carrier : Carrier) (name : string) :
  name <> "startTransaction" ->
  name <> "traceHeaders" ->
  registered name (_addTracingExtensions carrier) = registered name carrier
  /\ (hub <$> __SENTRY__ (_addTracingExtensions carrier))
     = (hub <$> __SENTRY__ carrier).
Proof.
  intros Hs Ht. unfold registered, _addTracingExtensions.
  destruct (__SENTRY__ carrier) as [sentry|] eqn:Hc; cbn;
    [|rewrite Hc; split; reflexivity].
  split; [|reflexivity].
  set (ext0 := match extensions sentry with Some e => e | None => ∅ end).
  assert (H0 : match extensions sentry with
               | Some table => table !! name
               | None => None
               end = ext0 !! name)
    by (unfold ext0; destruct (extensions sentry); [reflexivity|];
        now rewrite lookup_empty).
  rewrite H0. clearbody ext0. clear H0.
  destruct (ext0 !! "startTransaction");
    destruct (_ !! "traceHeaders");
    repeat rewrite lookup_insert_ne by congruence; reflexivity.
Qed.

(** ** The default sample context *)

Lemma find_first {A} (f : A -> bool) (l : list A) (x : A) :
  List.find f l = Some x <->
  exists before after,
    l = (before ++ x :: after)%list /\ f x = true
    /\ Forall (fun y => f y = false) before.
Proof.
  induction l as [|a l IH]; simpl.
  - split; [discriminate|]. intros (b & a & H & _). now destruct b.
  - destruct (f a) eqn:Ha.
    + split.
      * intros [= ->]. exists [], l. auto.
      * intros ([|b0 before] & after & Hl & Hx & Hb).
        -- now inversion Hl.
        -- inversion Hl; subst. inversion Hb; congruence.
    + rewrite IH. split.
      * intros (before & after & -> & Hx & Hb).
        exists (a :: before), after. auto.
      * intros ([|b0 before] & after & Hl & Hx & Hb).
        -- inversion Hl; congruence.
        -- inversion Hl; subst. inversion Hb; subst. eauto.
Qed.

Lemma getDefaultSampleContext_parent (env : Env) (transaction : Transaction) :
  parentSampled (getDefaultSampleContext env transaction) =
  if truthy_string (parentSpanId transaction)
     && bool_decide (sampled transaction <> None)
  then sampled transaction
  else None.
Proof. unfold getDefaultSampleContext. now destruct (isNodeEnv env). Qed.

(** X13. The default context carries a parent decision exactly when the
    transaction has a non-empty parent span id and a decision of its own;
    a decision preset on a transaction without parent is not passed on. *)
Theorem getDefaultSampleContext_parentSampled
    (env : Env) (transaction : Transaction) (decision : bool) :
  parentSampled (getDefaultSampleContext env transaction) = Some decision <->
  sampled transaction = Some decision
  /\ exists parent, parentSpanId transaction = Some parent /\ parent <> "".
Proof.
  rewrite getDefaultSampleContext_parent. unfold truthy_string.
  destruct (parentSpanId transaction) as [p|].
  - destruct (String.eqb_spec p "") as [->|Hne]; cbn [negb andb].
    + split; [discriminate|]. intros (_ & q & [= <-] & Hq). now destruct Hq.
    + destruct (sampled transaction) as [b|].
      * rewrite bool_decide_eq_true_2 by discriminate.
        split; [intros ->; eauto | now intros [-> _]].
      * rewrite bool_decide_eq_false_2 by (intros H; now apply H).
        split; [discriminate | now intros [? _]].
  - cbn. split; [discriminate|]. intros (_ & q & Hq & _). discriminate.
Qed.

(** X14. The default context has a request only under Node and a location only
    elsewhere, never both. The request is the snapshot of the first member
    of the active domain that is an incoming message; without a domain or
    such a member it is left out. *)
Theorem getDefaultSampleContext_environment
    (env : Env) (transaction : Transaction) :
  let ctx := getDefaultSampleContext env transaction in
  (request ctx = None \/ location ctx = None)
  /\ (isNodeEnv env = false ->
      request ctx = None /\ location ctx = globalLocation env)
  /\ (isNodeEnv env = true ->
      location ctx = None
      /\ forall data,
          request ctx = Some data <->
          exists members before member after,
            getActiveDomain env = Some members
            /\ members = (before ++ member :: after)%list
            /\ isIncomingMessage member = true
            /\ Forall (fun m => isIncomingMessage m = false) before
            /\ requestData member = data).
Proof.
  unfold getDefaultSampleContext. cbv zeta.
  destruct (isNodeEnv env); cbn.
  - split; [auto|]. split; [discriminate|]. intros _. split; [reflexivity|].
    intros data. destruct (getActiveDomain env) as [members|].
    + destruct (List.find isIncomingMessage members) as [m|] eqn:Hf.
      * apply find_first in Hf as (before & after & Hl & Hm & Hb).
        split.
        -- intros [= <-]. exists members, before, m, after. auto.
        -- intros (ms & b' & m' & a' & [= <-] & Hl' & Hm' & Hb' & <-).
           assert (Hf' : List.find isIncomingMessage members = Some m')
             by (apply find_first; eauto).
           assert (Hf : List.find isIncomingMessage members = Some m)
             by (apply find_first; eauto).
           congruence.
      * split; [discriminate|].
        intros (ms & b' & m' & a' & [= <-] & Hl' & Hm' & Hb' & _).
        assert (Hf' : List.find isIncomingMessage members = Some m')
          by (apply find_first; eauto).
        congruence.
    + split; [discriminate|]. intros (ms & _ & _ & _ & H & _). discriminate.
  - split; [auto|]. split; [auto|]. discriminate.
Qed.

(** ** Starting a transaction *)

Lemma spread_contexts_parent
    (defaults : SampleContext) (custom : option CustomSampleContext) :
  (forall c, custom = Some c -> custom_parentSampled c = None) ->
  parentSampled (spread_contexts defaults custom) = parentSampled defaults.
Proof.
  intros H. destruct custom as [c|]; [|reflexivity].
  cbn. now rewrite (H c eq_refl).
Qed.

(** X15. A [parentSampled] key of the custom sample context replaces the
    decision the transaction inherited: without a sampler function the
    started transaction gets the custom decision, whatever its parent's
    was. *)
Theorem startTransaction_custom_decision_overrides
    (env : Env) (this : Hub) (c : Client) (context : TransactionContext)
    (custom : CustomSampleContext) (decision : bool) (w : World) :
  getClient this = Some c ->
  hasTracingEnabled (getOptions c) = true ->
  typeof (prop (tracesSampler (getOptions c))) <> "function" ->
  custom_parentSampled custom = Some (Some decision) ->
  let r := _startTransaction env this context (Some custom) w in
  fst r = Normal tt /\ sampled (transaction (snd r)) = Some decision.
Proof.
  intros Hc He Hf Hk. cbv zeta. unfold _startTransaction.
  rewrite (sample_with_rate this c _ _ w w (VBoolean decision) Hc He)
    by (rewrite (sample_sampleRate_not_function _ _ Hf); cbn;
        now rewrite Hk).
  rewrite sample_decide_valid by reflexivity.
  destruct decision; cbn [ToBoolean negb rate_value].
  - rewrite draw_below_one. split; reflexivity.
  - split; reflexivity.
Qed.

(** X16. A transaction constructed with a non-empty parent span id and a
    decision keeps that decision through [_startTransaction], when there is
    no sampler function and the custom context has no [parentSampled]
    key. *)
Theorem startTransaction_child_keeps_decision
    (env : Env) (this : Hub) (c : Client) (context : TransactionContext)
    (custom : option CustomSampleContext) (parent : string)
    (decision : bool) (w : World) :
  getClient this = Some c ->
  hasTracingEnabled (getOptions c) = true ->
  typeof (prop (tracesSampler (getOptions c))) <> "function" ->
  (forall k, custom = Some k -> custom_parentSampled k = None) ->
  parentSpanId (new_Transaction context this) = Some parent ->
  parent <> "" ->
  sampled (new_Transaction context this) = Some decision ->
  let r := _startTransaction env this context custom w in
  fst r = Normal tt /\ sampled (transaction (snd r)) = Some decision.
Proof.
  intros Hc He Hf Hk Hp Hne Hs. cbv zeta. unfold _startTransaction.
  assert (Hctx : parentSampled
                   (spread_contexts
                      (getDefaultSampleContext env
                         (new_Transaction context this)) custom)
                 = Some decision).
  { rewrite (spread_contexts_parent _ custom Hk).
    rewrite getDefaultSampleContext_parent, Hp, Hs. cbn [truthy_string].
    destruct (String.eqb_spec parent "") as [E|_]; [contradiction|].
    cbn [negb andb]. now rewrite bool_decide_eq_true_2 by discriminate. }
  rewrite (sample_with_rate this c _ _ w w (VBoolean decision) Hc He)
    by (rewrite (sample_sampleRate_not_function _ _ Hf), Hctx; reflexivity).
  rewrite sample_decide_valid by reflexivity.
  destruct decision; cbn [ToBoolean negb rate_value].
  - rewrite draw_below_one. split; reflexivity.
  - split; reflexivity.
Qed.

(** X17. With a client, tracing enabled, [tracesSampler] not a function, no
    [parentSampled] key in the custom sample context and a valid static
    rate: a transaction constructed without a truthy parent span id leaves
    [_startTransaction] with [sampled] true exactly when the rate is truthy
    and the draw is below it. A decision preset by its context is
    overwritten, not inherited. *)
Theorem startTransaction_root_decided_by_static_rate
    (env : Env) (this : Hub) (c : Client) (context : TransactionContext)
    (custom : option CustomSampleContext) (rate : JSValue) (w : World) :
  getClient this = Some c ->
  hasTracingEnabled (getOptions c) = true ->
  typeof (prop (tracesSampler (getOptions c))) <> "function" ->
  (forall k, custom = Some k -> custom_parentSampled k = None) ->
  truthy_string (parentSpanId (new_Transaction context this)) = false ->
  prop (tracesSampleRate (getOptions c)) = rate ->
  spec_isValid rate = true ->
  let r := _startTransaction env this context custom w in
  fst r = Normal tt
  /\ sampled (transaction (snd r)) =
     Some (ToBoolean rate
           && SFltb (draw_value (rng w (rng_pos w))) (rate_value rate)).
Proof.
  intros Hc He Hf Hk Hp Hr Hv. cbv zeta. unfold _startTransaction.
  assert (Hctx : parentSampled
                   (spread_contexts
                      (getDefaultSampleContext env
                         (new_Transaction context this)) custom)
                 = None).
  { rewrite (spread_contexts_parent _ custom Hk).
    rewrite getDefaultSampleContext_parent, Hp. reflexivity. }
  rewrite (sample_with_rate this c _ _ w w rate Hc He)
    by (rewrite (sample_sampleRate_not_function _ _ Hf), Hctx, Hr;
        reflexivity).
  rewrite (sample_decide_valid _ rate _ w Hv).
  destruct (ToBoolean rate); cbn [negb andb]; [|split; reflexivity].
  destruct (SFltb _ _); split; reflexivity.
Qed.

(** X18. A candidate rate that the validator rejects by returning, as it does
    on every rate whose conversions complete: [sample] returns with
    [sampled = false] after two warnings, the validator's and its own, and
    with the recorder and the random source as they were. *)
Theorem sample_drops_rejected_rate
    (hub : Hub) (c : Client) (ctx : SampleContext)
    (t : Transaction) (w w1 : World) (rate : JSValue) (n : spec_float) :
  getClient hub = Some c ->
  hasTracingEnabled (getOptions c) = true ->
  sample_sampleRate (getOptions c) ctx w = (Normal rate, w1) ->
  spec_isValid rate = false ->
  ToNumber rate = Normal n ->
  JSON_stringify rate = Normal tt ->
  exists d,
    sample hub ctx {| transaction := t; world := w |} =
    (Normal tt,
     {| transaction := with_sampled false t;
        world := warned DiscardInvalidRate (warned d w1) |}).
Proof.
  intros Hc He Hr Hv Hn Hj.
  destruct (isValidSampleRate_rejects_when_conversions_complete
              rate w1 n Hv Hn Hj) as [d Hd].
  exists d. exact (sample_rejected_rate_dropped hub c ctx t w w1 _ rate
                     Hc He Hr Hd).
Qed.

End Host.

(** * Instances on the sample inputs *)

Lemma C1_candidate_rate_precedence_witness :
  (sample StringToNumber0 (hub_with (sampler_returning (VNumber quarter)))
     (child_of true) state0 =
   (let* rate := liftW (fun w => (Normal (VNumber quarter), w)) in
    sample_decide StringToNumber0 (sampler_returning (VNumber quarter)) rate)
     state0)
  /\ (sample StringToNumber0 (hub_with (static_rate (VNumber quarter)))
        (child_of true) state0 =
      sample_decide StringToNumber0 (static_rate (VNumber quarter))
        (VBoolean true) state0)
  /\ (sample StringToNumber0 (hub_with (static_rate (VNumber quarter)))
        no_context state0 =
      sample_decide StringToNumber0 (static_rate (VNumber quarter))
        (VNumber quarter) state0).
Proof.
  split; [|split].
  - exact (proj1 (C1_candidate_rate_precedence StringToNumber0
                    (hub_with (sampler_returning (VNumber quarter)))
                    {| getOptions := sampler_returning (VNumber quarter) |}
                    (child_of true) state0 eq_refl eq_refl)
                 plain _ eq_refl).
  - refine (proj1 (proj2 (C1_candidate_rate_precedence StringToNumber0
                    (hub_with (static_rate (VNumber quarter)))
                    {| getOptions := static_rate (VNumber quarter) |}
                    (child_of true) state0 eq_refl eq_refl))
                  _ true eq_refl).
    simpl. discriminate.
  - refine (proj2 (proj2 (C1_candidate_rate_precedence StringToNumber0
                    (hub_with (static_rate (VNumber quarter)))
                    {| getOptions := static_rate (VNumber quarter) |}
                    no_context state0 eq_refl eq_refl))
                  _ eq_refl).
    simpl. discriminate.
Defined.

Lemma C2_final_sampling_gate_witness :
  let out := sample StringToNumber0 (hub_with (static_rate (VNumber quarter)))
               (child_of true) state0 in
  fst out = Normal tt
  /\ (ToBoolean (VBoolean true) = true ->
      sampled (transaction (snd out)) =
        Some (SFltb (draw_value half) (rate_value (VBoolean true)))
      /\ rng_pos (world (snd out)) = 1)
  /\ (VBoolean true = VBoolean true ->
      sampled (transaction (snd out)) = Some true)
  /\ (VBoolean true = VBoolean false ->
      sampled (transaction (snd out)) = Some false).
Proof.
  exact (C2_final_sampling_gate StringToNumber0
           (hub_with (static_rate (VNumber quarter)))
           {| getOptions := static_rate (VNumber quarter) |}
           (child_of true) txn0 world0 world0 (VBoolean true)
           eq_refl eq_refl eq_refl eq_refl).
Defined.

(** C4, as stated, fails: a child of a sampled parent, started on a hub
    without a client, is dropped. *)
Lemma C4_parent_yes_dropped_without_client :
  ~ parent_yes_always_inherited StringToNumber0.
Proof.
  intros H.
  specialize (H hub_without_client (child_of true) txn0 world0 eq_refl).
  assert (Hf : typeof (prop (tracesSampler
                 (sample_options (getClient hub_without_client))))
               <> "function") by (simpl; discriminate).
  specialize (H Hf). vm_compute in H. discriminate H.
Qed.

Lemma C4_parent_yes_inherited_when_enabled_witness :
  sample StringToNumber0 (hub_with (static_rate (VNumber zero)))
    (child_of true) state0 =
  (Normal tt,
   {| transaction :=
        with_recorder (configured_cap (static_rate (VNumber zero)))
                      (with_sampled true txn0);
      world := drawn world0 |}).
Proof.
  refine (C4_parent_yes_inherited_when_enabled StringToNumber0
            (hub_with (static_rate (VNumber zero)))
            {| getOptions := static_rate (VNumber zero) |}
            (child_of true) txn0 world0 eq_refl eq_refl _ eq_refl).
  simpl. discriminate.
Defined.



Lemma C7_sampler_exception_propagates_witness :
  let out := sample StringToNumber0
               (hub_with (sampler_throwing (UserError "boom")))
               no_context state0 in
  fst out = Throw (UserError "boom")
  /\ transaction (snd out) = txn0
  /\ sampled (transaction (snd out)) = sampled txn0.
Proof.
  exact (C7_sampler_exception_propagates StringToNumber0
           (hub_with (sampler_throwing (UserError "boom")))
           {| getOptions := sampler_throwing (UserError "boom") |}
           no_context txn0 world0 world0 plain _ (UserError "boom")
           eq_refl eq_refl eq_refl).
Defined.

Lemma C8_registration_first_writer_wins_witness :
  registered "startTransaction"
    (Nat.iter 2 _addTracingExtensions carrier_taken) = Some (Foreign "other")
  /\ _addTracingExtensions (_addTracingExtensions carrier_taken)
     = _addTracingExtensions carrier_taken.
Proof.
  exact (C8_registration_first_writer_wins carrier_taken "startTransaction"
           (Foreign "other") 2 eq_refl).
Defined.

Lemma C9_trace_headers_witness :
  traceHeaders (hub_tracing (Some true))
    = {[ "sentry-trace" := "abc123-def456-1" ]}
  /\ traceHeaders (hub_tracing None) !! "sentry-trace"
     = Some "abc123-def456"
  /\ traceHeaders hub_idle = ∅
  /\ traceHeaders hub_without_client = ∅.
Proof.
  split; [|split; [|split]].
  - exact (proj1 (proj2 (proj2 (C9_trace_headers (hub_tracing (Some true))))
                    _ _ eq_refl eq_refl)).
  - exact (proj2 (proj2 (proj2 (proj2 (proj2
             (C9_trace_headers (hub_tracing None)))
               _ _ eq_refl eq_refl)) eq_refl eq_refl) eq_refl).
  - exact (proj1 (proj2 (C9_trace_headers hub_idle)) _ eq_refl eq_refl).
  - exact (proj1 (C9_trace_headers hub_without_client) eq_refl).
Defined.

Lemma C10_registration_without_sentry_global_witness :
  _addTracingExtensions carrier_bare = carrier_bare
  /\ __SENTRY__ (_addTracingExtensions carrier_bare) = None
  /\ registered "startTransaction" (_addTracingExtensions carrier_bare) = None
  /\ registered "traceHeaders" (_addTracingExtensions carrier_bare) = None.
Proof.
  exact (C10_registration_without_sentry_global carrier_bare eq_refl).
Defined.

(** ** The drop paths on the rates the specification lists *)

(** The string 0.5, NaN, -1 and 1.5 as static rates: two warnings, the
    decision [false], no draw and no recorder. *)
Example listed_invalid_rates_are_dropped :
  Forall
    (fun rate =>
       exists d,
         sample StringToNumber0 (hub_with (static_rate rate)) no_context state0
         = (Normal tt,
            {| transaction := with_sampled false txn0;
               world := warned DiscardInvalidRate (warned d world0) |}))
    [VString "0.5"; VNumber S754_nan; VNumber minus_one;
     VNumber one_and_a_half].
Proof.
  repeat constructor.
  - exists (InvalidRateType "string"). reflexivity.
  - exists (InvalidRateType "number"). reflexivity.
  - exists (RateOutOfRange minus_one). reflexivity.
  - exists (RateOutOfRange one_and_a_half). reflexivity.
Qed.

(** A fresh carrier gets both functions of this file; a slot already taken
    keeps its function. *)
Example registration_on_sample_carriers :
  registered "startTransaction" (_addTracingExtensions carrier_fresh)
    = Some The_startTransaction
  /\ registered "traceHeaders" (_addTracingExtensions carrier_fresh)
     = Some The_traceHeaders
  /\ registered "startTransaction" (_addTracingExtensions carrier_taken)
     = Some (Foreign "other")
  /\ registered "traceHeaders" (_addTracingExtensions carrier_taken)
     = Some The_traceHeaders.
Proof. repeat split. Qed.

(** ** Instances of the further properties *)

Lemma isValidSampleRate_throws_only_on_witness :
  typeof (VSymbol "x") = "symbol" \/ typeof (VSymbol "x") = "bigint"
  \/ (typeof (VSymbol "x") = "object" /\ VSymbol "x" <> VNull)
  \/ typeof (VSymbol "x") = "function".
Proof.
  exact (isValidSampleRate_throws_only_on StringToNumber0 (VSymbol "x")
           world0 world0 _ eq_refl).
Defined.

Lemma sample_diagnostics_of_valid_rate_witness :
  logs (world (snd (sample StringToNumber0
                      (hub_with (static_rate (VNumber quarter)))
                      no_context state0)))
  = [(LevelLog, DiscardNotSampled quarter)].
Proof.
  exact (sample_diagnostics_of_valid_rate StringToNumber0
           (hub_with (static_rate (VNumber quarter)))
           {| getOptions := static_rate (VNumber quarter) |}
           no_context txn0 world0 world0 (VNumber quarter)
           eq_refl eq_refl eq_refl eq_refl).
Defined.

Lemma sample_draws_only_for_truthy_valid_rate_witness :
  let w' := world (snd (sample StringToNumber0
                          (hub_with (static_rate (VNumber minus_one)))
                          no_context state0)) in
  rng w' = rng world0 /\ rng_pos w' = 0.
Proof.
  exact (sample_draws_only_for_truthy_valid_rate StringToNumber0
           (hub_with (static_rate (VNumber minus_one)))
           {| getOptions := static_rate (VNumber minus_one) |}
           no_context txn0 world0 world0 (VNumber minus_one)
           eq_refl eq_refl eq_refl).
Defined.

Lemma sample_inherits_parent_decision_witness :
  let r := sample StringToNumber0 (hub_with (static_rate (VNumber one)))
             (child_of false) state0 in
  fst r = Normal tt
  /\ sampled (transaction (snd r)) = Some false
  /\ rng_pos (world (snd r)) = 0.
Proof.
  refine (sample_inherits_parent_decision StringToNumber0
            (hub_with (static_rate (VNumber one)))
            {| getOptions := static_rate (VNumber one) |}
            (child_of false) txn0 world0 false eq_refl eq_refl _ eq_refl).
  simpl. discriminate.
Defined.

Lemma sample_monotone_in_rate_witness :
  sampled (transaction
             (snd (sample StringToNumber0
                     (hub_with (static_rate (VNumber one)))
                     no_context state0)))
  = Some true.
Proof.
  exact (sample_monotone_in_rate StringToNumber0
           (hub_with (static_rate (VNumber three_quarters)))
           (hub_with (static_rate (VNumber one)))
           {| getOptions := static_rate (VNumber three_quarters) |}
           {| getOptions := static_rate (VNumber one) |}
           no_context no_context txn0 world0 world0
           (VNumber three_quarters) (VNumber one)
           eq_refl eq_refl eq_refl eq_refl eq_refl eq_refl eq_refl eq_refl
           eq_refl eq_refl).
Defined.

Lemma registration_fills_free_slots_witness :
  registered "startTransaction" (_addTracingExtensions carrier_taken)
    = Some (Foreign "other")
  /\ registered "traceHeaders" (_addTracingExtensions carrier_taken)
     = Some The_traceHeaders.
Proof.
  exact (registration_fills_free_slots carrier_taken _ eq_refl).
Defined.

Lemma registration_leaves_other_slots_witness :
  registered "captureException" (_addTracingExtensions carrier_taken)
    = registered "captureException" carrier_taken
  /\ (hub <$> __SENTRY__ (_addTracingExtensions carrier_taken))
     = (hub <$> __SENTRY__ carrier_taken).
Proof.
  refine (registration_leaves_other_slots carrier_taken "captureException"
            _ _); discriminate.
Defined.

(** A child of an unsampled parent, started with a custom context that
    says the parent was sampled. *)
Lemma startTransaction_custom_decision_overrides_witness :
  let r := _startTransaction StringToNumber0 new_Transaction0 browser
             (hub_with (static_rate (VNumber zero))) (child_context false)
             (Some {| custom_parentSampled := Some (Some true);
                      custom_request := None; custom_location := None |})
             world0 in
  fst r = Normal tt /\ sampled (transaction (snd r)) = Some true.
Proof.
  refine (startTransaction_custom_decision_overrides StringToNumber0
            new_Transaction0 browser
            (hub_with (static_rate (VNumber zero)))
            {| getOptions := static_rate (VNumber zero) |}
            (child_context false)
            {| custom_parentSampled := Some (Some true);
               custom_request := None; custom_location := None |}
            true world0 eq_refl eq_refl _ eq_refl).
  simpl. discriminate.
Defined.

Lemma startTransaction_child_keeps_decision_witness :
  let r := _startTransaction StringToNumber0 new_Transaction0 server
             (hub_with (static_rate (VNumber zero))) (child_context true)
             None world0 in
  fst r = Normal tt /\ sampled (transaction (snd r)) = Some true.
Proof.
  refine (startTransaction_child_keeps_decision StringToNumber0
            new_Transaction0 server
            (hub_with (static_rate (VNumber zero)))
            {| getOptions := static_rate (VNumber zero) |}
            (child_context true) None "0123456789abcdef" true world0
            eq_refl eq_refl _ _ eq_refl _ eq_refl).
  - simpl. discriminate.
  - intros k Hk. discriminate Hk.
  - discriminate.
Defined.

(** A root transaction whose context presets [sampled = true], under a
    static rate of 0. *)
Lemma startTransaction_root_decided_by_static_rate_witness :
  let r := _startTransaction StringToNumber0 new_Transaction0 browser
             (hub_with (static_rate (VNumber zero)))
             (root_context (Some true)) None world0 in
  fst r = Normal tt /\ sampled (transaction (snd r)) = Some false.
Proof.
  refine (startTransaction_root_decided_by_static_rate StringToNumber0
            new_Transaction0 browser
            (hub_with (static_rate (VNumber zero)))
            {| getOptions := static_rate (VNumber zero) |}
            (root_context (Some true)) None (VNumber zero) world0
            eq_refl eq_refl _ _ eq_refl eq_refl eq_refl).
  - simpl. discriminate.
  - intros k Hk. discriminate Hk.
Defined.

(** The default context on the sample environments. *)
Example getDefaultSampleContext_on_sample_environments :
  getDefaultSampleContext server
    (new_Transaction0 (child_context true) hub_without_client)
  = {| parentSampled := Some true; request := Some "GET /";
       location := None |}
  /\ getDefaultSampleContext browser
       (new_Transaction0 (root_context (Some true)) hub_without_client)
     = {| parentSampled := None; request := None;
          location := Some "https://example.org/" |}.
Proof. split; reflexivity. Qed.

Lemma sample_drops_rejected_rate_witness :
  exists d,
    sample StringToNumber0 (hub_with (static_rate (VString "0.5")))
      no_context state0 =
    (Normal tt,
     {| transaction := with_sampled false txn0;
        world := warned DiscardInvalidRate (warned d world0) |}).
Proof.
  exact (sample_drops_rejected_rate StringToNumber0
           (hub_with (static_rate (VString "0.5")))
           {| getOptions := static_rate (VString "0.5") |}
           no_context txn0 world0 world0 (VString "0.5") (draw_value half)
           eq_refl eq_refl eq_refl eq_refl eq_refl eq_refl).
Defined.
